(** * create_segment_to_index_task: the per-segment indexing task

    A shallow embedding of [api/tasks/create_segment_to_index_task.py]
    and the properties of its control logic: the status guard, the
    eligibility checks, the two index tiers, the outcome recording and the
    release of the lock marker.

    The task is stateful and fallible, so it is written in a small
    state-and-exception monad over a [World] holding the database session,
    the committed rows, the calls received by the index tiers and the
    redis key space.  Python's [return] in the middle of a [try] block and
    the [try] / [except Exception] / [finally] statement are part of the
    monad.  The log records and the latency measurement (lines 25-28, 60,
    70, 78, 103-109 and 111) touch none of these and are left out. *)

From stdpp Require Import gmap strings list fin_maps.
From Stdlib Require Import ZArith.

Local Open Scope string_scope.

(** ** Data model *)

(** [datetime.datetime.utcnow()] values. *)
Definition datetime := Z.

(** The columns of [DocumentSegment] the task reads or writes.  The
    primary key [id] is the key of the row in the session map. *)
Record DocumentSegment := mkSegment {
  content : string;
  index_node_id : string;
  index_node_hash : string;
  document_id : string;
  dataset_id : string;
  status : string;
  indexing_at : option datetime;
  completed_at : option datetime;
  enabled : bool;
  disabled_at : option datetime;
  error : option string
}.

(** The parent document ([segment.document]); the task reads three of its
    attributes (line 77). *)
Module DatasetDocument.
Record t := mk {
  enabled : bool;
  archived : bool;
  indexing_status : string
}.
End DatasetDocument.

(** The parent dataset ([segment.dataset]); the task only tests it for
    presence and hands it to [IndexBuilder.get_index]. *)
Record Dataset := mkDataset { dataset_key : string }.

(** [langchain.schema.Document]: the indexable unit built on lines 47-55.
    The metadata dict is kept as the list of its items in insertion
    order. *)
Record Document := mkDocument {
  page_content : string;
  metadata : list (string * string)
}.

(** An index object returned by [IndexBuilder.get_index]. *)
Record Index := mkIndex { index_name : string }.

(** The calls the task makes on an index object, with their arguments.
    [duplicate_check] is [None] when the keyword argument is omitted at
    the call site (line 93). *)
Inductive IndexCall :=
| add_texts (index : Index) (texts : list Document)
            (duplicate_check : option bool)
| create_segment_keywords (index : Index) (node_id : string)
                          (keywords : list string).

(** The state the task works on. *)
Record World := mkWorld {
  session : gmap string DocumentSegment;   (* rows as [db.session] sees them *)
  committed : gmap string DocumentSegment; (* rows as of the last commit *)
  index_calls : list IndexCall;            (* calls received by the tiers *)
  redis : gset string                      (* keys present in redis *)
}.

(** ** Exceptions and the task monad *)

Inductive exn :=
| NotFound (description : string)   (* werkzeug.exceptions.NotFound *)
| Fault (description : string).     (* any other Exception of a collaborator *)

(** [str(e)]; werkzeug prefixes the code and name of an HTTP exception. *)
Definition str (e : exn) : string :=
  match e with
  | NotFound d => "404 Not Found: " +:+ d
  | Fault d => d
  end.

(** How a statement ends: normally, by a [return], or by raising. *)
Inductive outcome (A : Type) :=
| Normal (a : A)
| Return
| Raise (e : exn).
Arguments Normal {A} a.
Arguments Return {A}.
Arguments Raise {A} e.

Definition task (A : Type) := World -> outcome A * World.

Definition ret {A} (a : A) : task A := fun w => (Normal a, w).
Definition return_ {A} : task A := fun w => (Return, w).
Definition raise {A} (e : exn) : task A := fun w => (Raise e, w).

Definition bind {A B} (c : task A) (k : A -> task B) : task B :=
  fun w =>
    match c w with
    | (Normal a, w1) => k a w1
    | (Return, w1) => (Return, w1)
    | (Raise e, w1) => (Raise e, w1)
    end.

Declare Scope task_scope.
Delimit Scope task_scope with task.
Notation "'do' x <- c ; k" := (bind c (fun x => k))
  (at level 10, x name, c at level 100, k at level 200) : task_scope.
Notation "'run' c ; k" := (bind c (fun _ => k))
  (at level 10, c at level 100, k at level 200) : task_scope.
Local Open Scope task_scope.

(** [try: body  except Exception as e: handler e  finally: final].
    The handler runs when the body raises; the final block runs on every
    way out of the body or the handler, and a [return] or an exception of
    its own would replace the pending one. *)
Definition try_except_finally (body : task unit) (handler : exn -> task unit)
    (final : task unit) : task unit :=
  fun w =>
    let '(o1, w1) := body w in
    let '(o2, w2) := match o1 with
                     | Raise e => handler e w1
                     | _ => (o1, w1)
                     end in
    let '(o3, w3) := final w2 in
    match o3 with
    | Normal _ => (o2, w3)
    | _ => (o3, w3)
    end.

(** What the caller of the function sees. *)
Inductive completion :=
| Returned
| Raised (e : exn).

Definition call (c : task unit) (w : World) : completion * World :=
  match c w with
  | (Raise e, w1) => (Raised e, w1)
  | (_, w1) => (Returned, w1)
  end.

(** ** The collaborators *)

(** The calls of the guarded block (lines 39-109) that leave the
    function, and the commit of the handler (line 116). *)
Inductive call_site :=
| UpdateIndexing          (* line 45: Query.update *)
| CommitIndexing          (* line 46: db.session.commit *)
| BuildDocument           (* lines 47-55: Document(...) *)
| LoadDataset             (* line 57: segment.dataset *)
| LoadDocument            (* line 67: segment.document *)
| GetIndexHighQuality     (* line 86: IndexBuilder.get_index *)
| AddTextsHighQuality     (* line 87: index.add_texts *)
| GetIndexEconomy         (* line 89: IndexBuilder.get_index *)
| CreateSegmentKeywords   (* line 91: index.create_segment_keywords *)
| AddTextsEconomy         (* line 93: index.add_texts *)
| UpdateCompleted         (* line 100: Query.update *)
| CommitCompleted         (* line 101: db.session.commit *)
| CommitFailure.          (* line 116: db.session.commit *)

#[global] Instance call_site_eq_dec : EqDecision call_site.
Proof. solve_decision. Defined.

(** The behaviour of the collaborators during one invocation.  Their code
    is outside this file ([models.dataset], [core.index.index], the
    database and the clock), so it is a parameter of the task:
    - [fault c] is the description of the exception the call at site [c]
      raises, if it raises one.  It ranges over the calls of the guarded
      block, whose exceptions the function handles, and over the commit
      of the handler, whose exception nothing handles; the lookup of
      line 30 and the deletion of the lock marker are the store
      operations below;
    - [dataset_of] and [document_of] are what the relationships
      [segment.dataset] and [segment.document] resolve to, from the
      segment's [dataset_id] and [document_id];
    - [get_index] is the result of [IndexBuilder.get_index], [None] when
      the tier is not configured for the dataset;
    - [utcnow_indexing], [utcnow_completed] and [utcnow_disabled] are the
      clock readings on lines 43, 98 and 113. *)
Record Env := mkEnv {
  fault : call_site -> option string;
  dataset_of : string -> option Dataset;
  document_of : string -> option DatasetDocument.t;
  get_index : Dataset -> string -> option Index;
  utcnow_indexing : datetime;
  utcnow_completed : datetime;
  utcnow_disabled : datetime
}.

(** A collaborator call at site [c]: it raises when the environment says
    so, and performs [op] otherwise. *)
Definition at_site {A} (E : Env) (c : call_site) (op : task A) : task A :=
  fun w =>
    match fault E c with
    | Some d => (Raise (Fault d), w)
    | None => op w
    end.

(** ** Store operations *)

Definition set_session (m : gmap string DocumentSegment) (w : World) : World :=
  mkWorld m (committed w) (index_calls w) (redis w).

(** [DocumentSegment.query.filter_by(id=...).update(params)] and attribute
    assignment on the loaded row both change the row in the session. *)
Definition update_row (segment_id : string)
    (f : DocumentSegment -> DocumentSegment) : task unit :=
  fun w => (Normal tt, set_session (alter f segment_id (session w)) w).

(** [db.session.commit()]. *)
Definition commit : task unit :=
  fun w => (Normal tt, mkWorld (session w) (session w) (index_calls w) (redis w)).

(** A call on an index object: the tier receives the call, and the call
    may raise. *)
Definition index_call (E : Env) (c : call_site) (ic : IndexCall) : task unit :=
  fun w =>
    at_site E c (ret tt)
      (mkWorld (session w) (committed w) (index_calls w ++ [ic])%list (redis w)).

(** [redis_client.delete(key)]. *)
Definition redis_delete (key : string) : task unit :=
  fun w => (Normal tt,
            mkWorld (session w) (committed w) (index_calls w) (redis w ∖ {[key]})).

(** ** Field updates *)

Definition set_status (v : string) (s : DocumentSegment) : DocumentSegment :=
  mkSegment (content s) (index_node_id s) (index_node_hash s) (document_id s)
    (dataset_id s) v (indexing_at s) (completed_at s) (enabled s)
    (disabled_at s) (error s).

Definition set_indexing_at (v : option datetime) (s : DocumentSegment) : DocumentSegment :=
  mkSegment (content s) (index_node_id s) (index_node_hash s) (document_id s)
    (dataset_id s) (status s) v (completed_at s) (enabled s)
    (disabled_at s) (error s).

Definition set_completed_at (v : option datetime) (s : DocumentSegment) : DocumentSegment :=
  mkSegment (content s) (index_node_id s) (index_node_hash s) (document_id s)
    (dataset_id s) (status s) (indexing_at s) v (enabled s)
    (disabled_at s) (error s).

Definition set_enabled (v : bool) (s : DocumentSegment) : DocumentSegment :=
  mkSegment (content s) (index_node_id s) (index_node_hash s) (document_id s)
    (dataset_id s) (status s) (indexing_at s) (completed_at s) v
    (disabled_at s) (error s).

Definition set_disabled_at (v : option datetime) (s : DocumentSegment) : DocumentSegment :=
  mkSegment (content s) (index_node_id s) (index_node_hash s) (document_id s)
    (dataset_id s) (status s) (indexing_at s) (completed_at s) (enabled s)
    v (error s).

Definition set_error (v : option string) (s : DocumentSegment) : DocumentSegment :=
  mkSegment (content s) (index_node_id s) (index_node_hash s) (document_id s)
    (dataset_id s) (status s) (indexing_at s) (completed_at s) (enabled s)
    (disabled_at s) v.

(** ** The task *)

(** Line 37: [f'segment_{segment.id}_indexing']. *)
Definition indexing_cache_key (segment_id : string) : string :=
  "segment_" +:+ segment_id +:+ "_indexing".

(** Lines 41-44 and 96-99: the two [update_params] dicts. *)
Definition to_indexing (now : datetime) (s : DocumentSegment) : DocumentSegment :=
  set_indexing_at (Some now) (set_status "indexing" s).

Definition to_completed (now : datetime) (s : DocumentSegment) : DocumentSegment :=
  set_completed_at (Some now) (set_status "completed" s).

(** Lines 47-55. *)
Definition make_document (segment : DocumentSegment) : Document :=
  mkDocument (content segment)
    [("doc_id", index_node_id segment);
     ("doc_hash", index_node_hash segment);
     ("document_id", document_id segment);
     ("dataset_id", dataset_id segment)].

(** Line 77. *)
Definition document_invalid (d : DatasetDocument.t) : bool :=
  negb (DatasetDocument.enabled d) || DatasetDocument.archived d
  || negb (String.eqb (DatasetDocument.indexing_status d) "completed").

(** Line 90: [keywords and len(keywords) > 0]. *)
Definition keywords_given (keywords : option (list string)) : bool :=
  match keywords with
  | None => false
  | Some ks => negb (bool_decide (ks = [])) && (0 <? length ks)%nat
  end.

Definition keywords_list (keywords : option (list string)) : list string :=
  default [] keywords.

(** Lines 86-87. *)
Definition high_quality_tier (E : Env) (dataset : Dataset) (document : Document)
    : task unit :=
  do index <- at_site E GetIndexHighQuality (ret (get_index E dataset "high_quality"));
  match index with
  | Some index =>
      index_call E AddTextsHighQuality (add_texts index [document] (Some true))
  | None => ret tt
  end.

(** Lines 89-93. *)
Definition economy_tier (E : Env) (dataset : Dataset) (segment : DocumentSegment)
    (document : Document) (keywords : option (list string)) : task unit :=
  do index <- at_site E GetIndexEconomy (ret (get_index E dataset "economy"));
  match index with
  | Some index =>
      if keywords_given keywords then
        index_call E CreateSegmentKeywords
          (create_segment_keywords index (index_node_id segment)
             (keywords_list keywords))
      else
        index_call E AddTextsEconomy (add_texts index [document] None)
  | None => ret tt
  end.

(** Lines 86-109: the fan-out to the tiers and the transition to
    [completed]. *)
Definition index_and_complete (E : Env) (segment_id : string)
    (segment : DocumentSegment) (dataset : Dataset) (document : Document)
    (keywords : option (list string)) : task unit :=
  run high_quality_tier E dataset document;
  run economy_tier E dataset segment document keywords;
  run at_site E UpdateCompleted
       (update_row segment_id (to_completed (utcnow_completed E)));
  at_site E CommitCompleted commit.

(** Lines 40-109: the body of the [try]. *)
Definition guarded_block (E : Env) (segment_id : string)
    (segment : DocumentSegment) (keywords : option (list string)) : task unit :=
  run at_site E UpdateIndexing
       (update_row segment_id (to_indexing (utcnow_indexing E)));
  run at_site E CommitIndexing commit;
  do document <- at_site E BuildDocument (ret (make_document segment));
  do dataset <- at_site E LoadDataset (ret (dataset_of E (dataset_id segment)));
  match dataset with
  | None => return_
  | Some dataset =>
      do dataset_document <-
        at_site E LoadDocument (ret (document_of E (document_id segment)));
      match dataset_document with
      | None => return_
      | Some dataset_document =>
          if document_invalid dataset_document then return_
          else index_and_complete E segment_id segment dataset document keywords
      end
  end.

(** Lines 110-116: the [except Exception as e] block. *)
Definition record_failure (E : Env) (segment_id : string) (e : exn) : task unit :=
  run update_row segment_id (set_enabled false);
  run update_row segment_id (set_disabled_at (Some (utcnow_disabled E)));
  run update_row segment_id (set_status "error");
  run update_row segment_id (set_error (Some (str e)));
  at_site E CommitFailure commit.

(** Lines 30-118: the function body. *)
Definition task_body (E : Env) (segment_id : string)
    (keywords : option (list string)) : task unit :=
  fun w =>
    match session w !! segment_id with
    | None => raise (NotFound "Segment not found") w
    | Some segment =>
        if negb (String.eqb (status segment) "waiting") then return_ w
        else
          try_except_finally
            (guarded_block E segment_id segment keywords)
            (record_failure E segment_id)
            (redis_delete (indexing_cache_key segment_id)) w
    end.

Definition create_segment_to_index_task (E : Env) (segment_id : string)
    (keywords : option (list string)) (w : World) : completion * World :=
  call (task_body E segment_id keywords) w.

(** ** Notions used in the statements *)

(** The row written by the [except] block: the four assignments of lines
    112-115, in order. *)
Definition failed (E : Env) (e : exn) (s : DocumentSegment) : DocumentSegment :=
  set_error (Some (str e))
    (set_status "error"
       (set_disabled_at (Some (utcnow_disabled E)) (set_enabled false s))).

(** The columns no statement of the guarded block assigns. *)
Definition block_frame (s s' : DocumentSegment) : Prop :=
  content s' = content s ∧ index_node_id s' = index_node_id s ∧
  index_node_hash s' = index_node_hash s ∧ document_id s' = document_id s ∧
  dataset_id s' = dataset_id s ∧ enabled s' = enabled s ∧
  disabled_at s' = disabled_at s ∧ error s' = error s.

(** The segment passes the eligibility checks of lines 57-84: its dataset
    and its document resolve, and the document is enabled, not archived
    and completely indexed. *)
Definition eligible (E : Env) (segment : DocumentSegment) (dataset : Dataset) : Prop :=
  dataset_of E (dataset_id segment) = Some dataset ∧
  ∃ d, document_of E (document_id segment) = Some d ∧
       DatasetDocument.enabled d = true ∧
       DatasetDocument.archived d = false ∧
       DatasetDocument.indexing_status d = "completed".

(** No call at one of the sites [cs] raises. *)
Definition quiet (E : Env) (cs : list call_site) : Prop :=
  Forall (fun c => fault E c = None) cs.

(** The calls made until the eligibility checks are over. *)
Definition before_tiers : list call_site :=
  [UpdateIndexing; CommitIndexing; BuildDocument; LoadDataset; LoadDocument].

Definition all_sites : list call_site :=
  [UpdateIndexing; CommitIndexing; BuildDocument; LoadDataset; LoadDocument;
   GetIndexHighQuality; AddTextsHighQuality; GetIndexEconomy;
   CreateSegmentKeywords; AddTextsEconomy; UpdateCompleted; CommitCompleted].

(** The call the high-quality tier receives when it is configured. *)
Definition high_quality_calls (E : Env) (dataset : Dataset)
    (segment : DocumentSegment) : list IndexCall :=
  match get_index E dataset "high_quality" with
  | Some index => [add_texts index [make_document segment] (Some true)]
  | None => []
  end.

(** The call the economy tier receives when it is configured. *)
Definition economy_calls (E : Env) (dataset : Dataset)
    (segment : DocumentSegment) (keywords : option (list string))
    : list IndexCall :=
  match get_index E dataset "economy" with
  | Some index =>
      [if keywords_given keywords then
         create_segment_keywords index (index_node_id segment)
           (keywords_list keywords)
       else add_texts index [make_document segment] None]
  | None => []
  end.

(** ** Scenarios *)

Module Scenario.

Definition segment (st : string) : DocumentSegment :=
  mkSegment "some text" "node-1" "hash-1" "doc-1" "ds-1" st None None true
    None None.

Definition world (segment_id st : string) (keys : gset string) : World :=
  mkWorld {[segment_id := segment st]} {[segment_id := segment st]} [] keys.

Definition dataset : Dataset := mkDataset "ds-1".
Definition vector_index : Index := mkIndex "vector".
Definition keyword_index : Index := mkIndex "keyword-table".

Definition good_document : DatasetDocument.t :=
  DatasetDocument.mk true false "completed".

Definition archived_document : DatasetDocument.t :=
  DatasetDocument.mk true true "completed".

(** Collaborators with the dataset in place, the document [doc], the
    tiers configured as [hq] and [eco] say, and the faults [fl]. *)
Definition env_with (doc : option DatasetDocument.t)
    (fl : call_site → option string) (hq eco : bool) : Env :=
  mkEnv fl
    (fun k => if String.eqb k "ds-1" then Some dataset else None)
    (fun k => if String.eqb k "doc-1" then doc else None)
    (fun _ tier =>
       if String.eqb tier "high_quality" then
         (if hq then Some vector_index else None)
       else if String.eqb tier "economy" then
         (if eco then Some keyword_index else None)
       else None)
    100%Z 200%Z 300%Z.

Definition env := env_with (Some good_document).

Definition no_fault : call_site → option string := fun _ => None.

Definition fault_at (c : call_site) (d : string) : call_site → option string :=
  fun c' => if decide (c' = c) then Some d else None.

(** The database is lost once the segment is marked: the final commit
    and the commit of the handler both raise. *)
Definition connection_lost : call_site → option string :=
  fun c => if decide (c = CommitCompleted ∨ c = CommitFailure)
           then Some "connection lost" else None.

End Scenario.

(** The calls an eligible segment goes through once the eligibility
    checks are over, in the order of the source: the writes of the
    configured tiers, then the final update and commit. *)
Definition sites_after_eligibility (E : Env) (dataset : Dataset)
    (keywords : option (list string)) : list call_site :=
  ([GetIndexHighQuality]
  ++ match get_index E dataset "high_quality" with
     | Some _ => [AddTextsHighQuality]
     | None => []
     end
  ++ [GetIndexEconomy]
  ++ match get_index E dataset "economy" with
     | Some _ => [if keywords_given keywords then CreateSegmentKeywords
                  else AddTextsEconomy]
     | None => []
     end
  ++ [UpdateCompleted; CommitCompleted])%list.

(** All the calls an eligible segment goes through in the guarded
    block. *)
Definition sites_on_path (E : Env) (dataset : Dataset)
    (keywords : option (list string)) : list call_site :=
  (before_tiers ++ sites_after_eligibility E dataset keywords)%list.

(** The first call among [cs] that raises, with the description of its
    exception. *)
Fixpoint first_fault (E : Env) (cs : list call_site)
    : option (call_site * string) :=
  match cs with
  | [] => None
  | c :: cs' =>
      match fault E c with
      | Some d => Some (c, d)
      | None => first_fault E cs'
      end
  end.

(** A call on an index object that is about [segment]: an [add_texts] of
    the one document built from it, or a [create_segment_keywords] under
    its node identifier with the non-empty keyword list of the
    invocation. *)
Definition call_for_segment (segment : DocumentSegment)
    (keywords : option (list string)) (ic : IndexCall) : Prop :=
  match ic with
  | add_texts _ texts _ => texts = [make_document segment]
  | create_segment_keywords _ node_id ks =>
      node_id = index_node_id segment ∧ keywords = Some ks ∧ ks ≠ []
  end.

(** The world with the keys [keys] in redis. *)
Definition with_redis (keys : gset string) (w : World) : World :=
  mkWorld (session w) (committed w) (index_calls w) keys.


(** ** Reasoning about the task *)

Ltac unfold_task :=
  unfold guarded_block, index_and_complete, high_quality_tier, economy_tier,
    record_failure, index_call, at_site, bind, ret, return_, raise,
    update_row, commit, redis_delete, set_session in *.

(** Case analysis on whether the call at site [c] raises. *)
Ltac at_fault E c :=
  let H := fresh "Hf" in
  destruct (fault E c) eqn:H; simpl in *.

(** Use the hypothesis [Hq : quiet E cs] at every site of [cs] the goal
    mentions. *)
Ltac use_quiet Hq :=
  unfold quiet, before_tiers, all_sites in Hq; simpl in Hq;
  repeat match type of Hq with
         | Forall _ (_ :: _) =>
             let H := fresh "Hq" in
             apply Forall_cons in Hq as [H Hq]; rewrite ?H
         end.

(** A leaf of the case analysis of the guarded block: the session is the
    initial one altered at the segment by one of three functions. *)
Ltac block_leaf :=
  split; [reflexivity |];
  first
    [ exists (fun s => s); split; [symmetry; by apply alter_id |]
    | eexists (to_indexing _); split; [reflexivity |]
    | eexists (to_completed _ ∘ to_indexing _); split;
      [by rewrite alter_alter_eq |] ];
  (split; [intros ?; by repeat split |]);
  (split; [first [ intros Hr; by (exfalso; eapply Hr)
                 | intros _ ?; by (left + right) ] |]);
  first [ intros _ ?; reflexivity | by intros [=] ].

(** A leaf of the case analysis for an eligible segment: the block raised,
    or it ran to its end. *)
Ltac eligible_leaf :=
  first [ right; by eexists
        | left; split; [reflexivity |];
          split; [by rewrite alter_alter_eq | reflexivity] ].

Lemma waiting_eqb s :
  status s = "waiting" → negb (String.eqb (status s) "waiting") = false.
Proof. intros ->. reflexivity. Qed.

Lemma not_waiting_eqb s :
  status s ≠ "waiting" → negb (String.eqb (status s) "waiting") = true.
Proof.
  intros Hs. destruct (String.eqb_spec (status s) "waiting"); [done | reflexivity].
Qed.

Lemma document_invalid_false d :
  DatasetDocument.enabled d = true →
  DatasetDocument.archived d = false →
  DatasetDocument.indexing_status d = "completed" →
  document_invalid d = false.
Proof. unfold document_invalid. by intros -> -> ->. Qed.

Lemma document_invalid_true d :
  DatasetDocument.enabled d = false ∨ DatasetDocument.archived d = true
  ∨ DatasetDocument.indexing_status d ≠ "completed" →
  document_invalid d = true.
Proof.
  unfold document_invalid. intros [-> | [-> | Hs]]; [done | |].
  - by rewrite orb_true_r.
  - destruct (String.eqb_spec (DatasetDocument.indexing_status d) "completed");
      [done | by rewrite orb_true_r].
Qed.

Lemma keywords_given_nonempty ks :
  ks ≠ [] → keywords_given (Some ks) = true.
Proof. destruct ks; [done | reflexivity]. Qed.

Lemma record_failure_spec E segment_id e w :
  record_failure E segment_id e w =
  match fault E CommitFailure with
  | Some d =>
      (Raise (Fault d),
       mkWorld (alter (failed E e) segment_id (session w)) (committed w)
               (index_calls w) (redis w))
  | None =>
      (Normal tt,
       mkWorld (alter (failed E e) segment_id (session w))
               (alter (failed E e) segment_id (session w))
               (index_calls w) (redis w))
  end.
Proof.
  unfold_task. simpl. rewrite !alter_alter_eq.
  by destruct (fault E CommitFailure).
Qed.

(** The function on a segment in [waiting]: the guarded block, then the
    handler if the block raised, then the release of the lock marker; an
    exception of the handler is the one the caller sees. *)
Lemma task_body_waiting E segment_id keywords w segment :
  session w !! segment_id = Some segment →
  status segment = "waiting" →
  create_segment_to_index_task E segment_id keywords w =
  let '(o, w1) := guarded_block E segment_id segment keywords w in
  match o with
  | Raise e =>
      let '(o2, w2) := record_failure E segment_id e w1 in
      (match o2 with Raise e2 => Raised e2 | _ => Returned end,
       snd (redis_delete (indexing_cache_key segment_id) w2))
  | _ => (Returned, snd (redis_delete (indexing_cache_key segment_id) w1))
  end.
Proof.
  intros Hs Hw. unfold create_segment_to_index_task, call, task_body.
  rewrite Hs, (waiting_eqb _ Hw). unfold try_except_finally.
  destruct (guarded_block E segment_id segment keywords w) as [o w1].
  destruct o as [[]| |e]; try reflexivity.
  destruct (record_failure E segment_id e w1) as [o2 w2].
  by destruct o2 as [[]| |e2].
Qed.

Lemma task_body_not_waiting E segment_id keywords w segment :
  session w !! segment_id = Some segment →
  status segment ≠ "waiting" →
  create_segment_to_index_task E segment_id keywords w = (Returned, w).
Proof.
  intros Hs Hw. unfold create_segment_to_index_task, call, task_body.
  by rewrite Hs, (not_waiting_eqb _ Hw).
Qed.

Lemma task_body_missing E segment_id keywords w :
  session w !! segment_id = None →
  create_segment_to_index_task E segment_id keywords w =
  (Raised (NotFound "Segment not found"), w).
Proof.
  intros Hs. unfold create_segment_to_index_task, call, task_body.
  by rewrite Hs.
Qed.

(** What the guarded block may do to the world: it leaves redis alone and
    alters the session at the segment only, by the two status updates;
    unless it raises, the row has left [waiting]; once the first update
    went through, [indexing_at] holds its time. *)
Lemma guarded_block_spec E segment_id segment keywords w :
  let '(o, w1) := guarded_block E segment_id segment keywords w in
  redis w1 = redis w ∧
  ∃ f, session w1 = alter f segment_id (session w) ∧
       (∀ s, block_frame s (f s)) ∧
       ((∀ e, o ≠ Raise e) →
        ∀ s, status (f s) = "indexing" ∨ status (f s) = "completed") ∧
       (fault E UpdateIndexing = None →
        ∀ s, indexing_at (f s) = Some (utcnow_indexing E)).
Proof.
  unfold_task.
  at_fault E UpdateIndexing; [block_leaf |].
  at_fault E CommitIndexing; [block_leaf |].
  at_fault E BuildDocument; [block_leaf |].
  at_fault E LoadDataset; [block_leaf |].
  destruct (dataset_of E (dataset_id segment)) as [dataset|]; [| block_leaf].
  at_fault E LoadDocument; [block_leaf |].
  destruct (document_of E (document_id segment)) as [d|]; [| block_leaf].
  destruct (document_invalid d); [block_leaf |].
  at_fault E GetIndexHighQuality; [block_leaf |].
  destruct (get_index E dataset "high_quality") as [hq|]; simpl.
  - at_fault E AddTextsHighQuality; [block_leaf |].
    at_fault E GetIndexEconomy; [block_leaf |].
    destruct (get_index E dataset "economy") as [eco|]; simpl.
    + destruct (keywords_given keywords); simpl.
      * at_fault E CreateSegmentKeywords; [block_leaf |].
        at_fault E UpdateCompleted; [block_leaf |].
        at_fault E CommitCompleted; block_leaf.
      * at_fault E AddTextsEconomy; [block_leaf |].
        at_fault E UpdateCompleted; [block_leaf |].
        at_fault E CommitCompleted; block_leaf.
    + at_fault E UpdateCompleted; [block_leaf |].
      at_fault E CommitCompleted; block_leaf.
  - at_fault E GetIndexEconomy; [block_leaf |].
    destruct (get_index E dataset "economy") as [eco|]; simpl.
    + destruct (keywords_given keywords); simpl.
      * at_fault E CreateSegmentKeywords; [block_leaf |].
        at_fault E UpdateCompleted; [block_leaf |].
        at_fault E CommitCompleted; block_leaf.
      * at_fault E AddTextsEconomy; [block_leaf |].
        at_fault E UpdateCompleted; [block_leaf |].
        at_fault E CommitCompleted; block_leaf.
    + at_fault E UpdateCompleted; [block_leaf |].
      at_fault E CommitCompleted; block_leaf.
Qed.

(** On an eligible segment the guarded block either raises or runs to its
    end, with the row marked [completed] and committed. *)
Lemma guarded_block_eligible E segment_id segment dataset keywords w :
  eligible E segment dataset →
  let '(o, w1) := guarded_block E segment_id segment keywords w in
  (o = Normal tt ∧
   session w1 =
     alter (to_completed (utcnow_completed E) ∘ to_indexing (utcnow_indexing E))
       segment_id (session w) ∧
   committed w1 = session w1)
  ∨ (∃ e, o = Raise e).
Proof.
  intros (Hds & d & Hdoc & Hen & Har & Hst).
  pose proof (document_invalid_false d Hen Har Hst) as Hval.
  unfold_task. rewrite Hds, Hdoc.
  at_fault E UpdateIndexing; [eligible_leaf |].
  at_fault E CommitIndexing; [eligible_leaf |].
  at_fault E BuildDocument; [eligible_leaf |].
  at_fault E LoadDataset; [eligible_leaf |].
  at_fault E LoadDocument; [eligible_leaf |].
  rewrite Hval.
  at_fault E GetIndexHighQuality; [eligible_leaf |].
  destruct (get_index E dataset "high_quality") as [hq|]; simpl;
    [at_fault E AddTextsHighQuality; [eligible_leaf |] |];
    (at_fault E GetIndexEconomy; [eligible_leaf |]);
    (destruct (get_index E dataset "economy") as [eco|]; simpl;
     [destruct (keywords_given keywords); simpl;
      [at_fault E CreateSegmentKeywords; [eligible_leaf |]
      |at_fault E AddTextsEconomy; [eligible_leaf |]] |]);
    (at_fault E UpdateCompleted; [eligible_leaf |]);
    at_fault E CommitCompleted; eligible_leaf.
Qed.

(** The row of the segment once an invocation on a [waiting] segment is
    over: it has left [waiting], and the lock marker is gone.  The
    invocation returns, unless the commit of the handler raised. *)
Lemma after_waiting_run E segment_id keywords w segment :
  session w !! segment_id = Some segment →
  status segment = "waiting" →
  ∃ r w1, create_segment_to_index_task E segment_id keywords w = (r, w1) ∧
          (r = Returned
           ∨ ∃ d, fault E CommitFailure = Some d ∧ r = Raised (Fault d)) ∧
          redis w1 = redis w ∖ {[indexing_cache_key segment_id]} ∧
          ∃ s1, session w1 !! segment_id = Some s1 ∧ status s1 ≠ "waiting".
Proof.
  intros Hs Hw. rewrite (task_body_waiting _ _ _ _ _ Hs Hw).
  pose proof (guarded_block_spec E segment_id segment keywords w) as Hb.
  destruct (guarded_block E segment_id segment keywords w) as [o wb].
  destruct Hb as (Hredis & f & Hf & _ & Hst & _).
  destruct o as [[]| |e].
  - eexists _, _. split; [reflexivity |]. split; [by left |].
    simpl. rewrite Hredis. split; [reflexivity |].
    exists (f segment). rewrite Hf, lookup_alter_eq, Hs. split; [done |].
    destruct (Hst ltac:(done) segment) as [-> | ->]; done.
  - eexists _, _. split; [reflexivity |]. split; [by left |].
    simpl. rewrite Hredis. split; [reflexivity |].
    exists (f segment). rewrite Hf, lookup_alter_eq, Hs. split; [done |].
    destruct (Hst ltac:(done) segment) as [-> | ->]; done.
  - rewrite record_failure_spec.
    destruct (fault E CommitFailure) as [d|] eqn:Hcf;
      (eexists _, _; split; [reflexivity |]);
      (split; [first [by left | right; by exists d] |]);
      simpl; rewrite Hredis; (split; [reflexivity |]);
      exists (failed E e (f segment));
      by rewrite Hf, !lookup_alter_eq, Hs.
Qed.

(** When the guarded block raises, the handler writes its row in the
    session and the lock marker is released; the row is committed and the
    function returns if the commit of the handler goes through, and the
    exception of that commit reaches the caller otherwise. *)
Lemma after_raising_block E segment_id keywords w segment e wb :
  session w !! segment_id = Some segment →
  status segment = "waiting" →
  guarded_block E segment_id segment keywords w = (Raise e, wb) →
  ∃ s1, session wb !! segment_id = Some s1 ∧ block_frame segment s1 ∧
        (fault E UpdateIndexing = None →
         indexing_at s1 = Some (utcnow_indexing E)) ∧
        create_segment_to_index_task E segment_id keywords w =
        match fault E CommitFailure with
        | None =>
            (Returned,
             mkWorld (<[segment_id := failed E e s1]> (session wb))
                     (<[segment_id := failed E e s1]> (session wb))
                     (index_calls wb)
                     (redis w ∖ {[indexing_cache_key segment_id]}))
        | Some d =>
            (Raised (Fault d),
             mkWorld (<[segment_id := failed E e s1]> (session wb))
                     (committed wb)
                     (index_calls wb)
                     (redis w ∖ {[indexing_cache_key segment_id]}))
        end.
Proof.
  intros Hs Hw Hb. rewrite (task_body_waiting _ _ _ _ _ Hs Hw).
  pose proof (guarded_block_spec E segment_id segment keywords w) as Hspec.
  rewrite Hb in *. destruct Hspec as (Hredis & f & Hf & Hfr & _ & Hat).
  exists (f segment).
  assert (session wb !! segment_id = Some (f segment)) as Hs1
    by (by rewrite Hf, lookup_alter_eq, Hs).
  split; [done |]. split; [apply Hfr |]. split; [by intros; apply Hat |].
  rewrite record_failure_spec.
  destruct (fault E CommitFailure) as [d|]; simpl;
    by rewrite (alter_alt_Some _ _ _ _ Hs1), Hredis.
Qed.

Lemma first_fault_None E cs : first_fault E cs = None ↔ quiet E cs.
Proof.
  unfold quiet. induction cs as [|c cs IH]; simpl.
  - split; [constructor | done].
  - rewrite Forall_cons. destruct (fault E c) as [d|].
    + split; [done | by intros [? _]].
    + rewrite IH. split; [done | by intros [_ ?]].
Qed.

(** How the guarded block ends on an eligible segment: it raises the
    exception of the first call on its way that raises, and runs to its
    end when there is none. *)
Lemma guarded_block_outcome E segment_id segment dataset keywords w :
  eligible E segment dataset →
  fst (guarded_block E segment_id segment keywords w) =
  match first_fault E (sites_on_path E dataset keywords) with
  | Some (_, d) => Raise (Fault d)
  | None => Normal tt
  end.
Proof.
  intros (Hds & d & Hdoc & Hen & Har & Hst).
  pose proof (document_invalid_false d Hen Har Hst) as Hval.
  unfold sites_on_path, sites_after_eligibility, before_tiers.
  unfold_task. rewrite Hds, Hdoc. simpl.
  at_fault E UpdateIndexing; [reflexivity |].
  at_fault E CommitIndexing; [reflexivity |].
  at_fault E BuildDocument; [reflexivity |].
  at_fault E LoadDataset; [reflexivity |].
  at_fault E LoadDocument; [reflexivity |].
  rewrite Hval.
  at_fault E GetIndexHighQuality; [reflexivity |].
  destruct (get_index E dataset "high_quality") as [hq|]; simpl;
    [at_fault E AddTextsHighQuality; [reflexivity |] |];
    (at_fault E GetIndexEconomy; [reflexivity |]);
    (destruct (get_index E dataset "economy") as [eco|]; simpl;
     [destruct (keywords_given keywords); simpl;
      [at_fault E CreateSegmentKeywords; [reflexivity |]
      |at_fault E AddTextsEconomy; [reflexivity |]] |]);
    (at_fault E UpdateCompleted; [reflexivity |]);
    at_fault E CommitCompleted; reflexivity.
Qed.

(** ** The scenarios of the specification, run *)

(** S1: high-quality tier configured, economy tier absent. *)
Example scenario_high_quality_only :
  create_segment_to_index_task (Scenario.env Scenario.no_fault true false)
    "S1" None (Scenario.world "S1" "waiting" {[indexing_cache_key "S1"]})
  = (Returned,
     let s := mkSegment "some text" "node-1" "hash-1" "doc-1" "ds-1"
                "completed" (Some 100%Z) (Some 200%Z) true None None in
     mkWorld {["S1" := s]} {["S1" := s]}
       [add_texts Scenario.vector_index
          [mkDocument "some text"
             [("doc_id", "node-1"); ("doc_hash", "hash-1");
              ("document_id", "doc-1"); ("dataset_id", "ds-1")]]
          (Some true)]
       ∅).
Proof. vm_compute. reflexivity. Qed.

(** S2: economy tier configured, keywords supplied. *)
Example scenario_keywords_supplied :
  create_segment_to_index_task (Scenario.env Scenario.no_fault false true)
    "S2" (Some ["alpha"; "beta"])
    (Scenario.world "S2" "waiting" {[indexing_cache_key "S2"]})
  = (Returned,
     let s := mkSegment "some text" "node-1" "hash-1" "doc-1" "ds-1"
                "completed" (Some 100%Z) (Some 200%Z) true None None in
     mkWorld {["S2" := s]} {["S2" := s]}
       [create_segment_keywords Scenario.keyword_index "node-1"
          ["alpha"; "beta"]]
       ∅).
Proof. vm_compute. reflexivity. Qed.

(** S3: the write to the high-quality tier raises. *)
Example scenario_high_quality_write_raises :
  create_segment_to_index_task
    (Scenario.env (Scenario.fault_at AddTextsHighQuality "vector store down")
       true true)
    "S3" None (Scenario.world "S3" "waiting" {[indexing_cache_key "S3"]})
  = (Returned,
     let s := mkSegment "some text" "node-1" "hash-1" "doc-1" "ds-1"
                "error" (Some 100%Z) None false (Some 300%Z)
                (Some "vector store down") in
     mkWorld {["S3" := s]} {["S3" := s]}
       [add_texts Scenario.vector_index
          [mkDocument "some text"
             [("doc_id", "node-1"); ("doc_hash", "hash-1");
              ("document_id", "doc-1"); ("dataset_id", "ds-1")]]
          (Some true)]
       ∅).
Proof. vm_compute. reflexivity. Qed.

(** An empty keyword list goes through [add_texts], as no list does. *)
Example scenario_empty_keywords :
  index_calls
    (snd (create_segment_to_index_task
            (Scenario.env Scenario.no_fault false true) "S2" (Some [])
            (Scenario.world "S2" "waiting" ∅)))
  = [add_texts Scenario.keyword_index
       [make_document (Scenario.segment "waiting")] None].
Proof. vm_compute. reflexivity. Qed.

(** A missing document: the segment stays in [indexing]. *)
Example scenario_missing_document :
  create_segment_to_index_task
    (Scenario.env_with None Scenario.no_fault true true)
    "S5" None (Scenario.world "S5" "waiting" {[indexing_cache_key "S5"]})
  = (Returned,
     let s := mkSegment "some text" "node-1" "hash-1" "doc-1" "ds-1"
                "indexing" (Some 100%Z) None true None None in
     mkWorld {["S5" := s]} {["S5" := s]} [] ∅).
Proof. vm_compute. reflexivity. Qed.

(** ** The claims *)

(** C1 (as amended).  An invocation on an existing segment in [waiting]
    ends with the lock marker of the segment absent from redis, whatever
    the collaborators do (completion, eligibility skip or recorded
    fault); it returns, unless the commit of the handler raised.  On an
    existing segment that is not in [waiting] the function returns on
    line 35, before the key is built and the [try] is entered, and redis
    is left as it was. *)
Theorem lock_released_after_waiting_run E segment_id keywords w segment :
  session w !! segment_id = Some segment →
  (status segment = "waiting" →
   (fst (create_segment_to_index_task E segment_id keywords w) = Returned
    ∨ ∃ d, fault E CommitFailure = Some d ∧
           fst (create_segment_to_index_task E segment_id keywords w)
           = Raised (Fault d)) ∧
   indexing_cache_key segment_id
     ∉ redis (snd (create_segment_to_index_task E segment_id keywords w))) ∧
  (status segment ≠ "waiting" →
   redis (snd (create_segment_to_index_task E segment_id keywords w)) = redis w).
Proof.
  intros Hs. split; intros Hw.
  - destruct (after_waiting_run E _ keywords _ _ Hs Hw)
      as (r & w1 & -> & Hret & Hr & _).
    simpl. rewrite Hr. split; [exact Hret |].
    intros [_ Hn]%elem_of_difference. apply Hn. by apply elem_of_singleton.
  - by rewrite (task_body_not_waiting _ _ _ _ _ Hs Hw).
Qed.

Lemma lock_released_after_waiting_run_witness :
  let E := Scenario.env Scenario.connection_lost true false in
  let w := Scenario.world "S1" "waiting" {[indexing_cache_key "S1"]} in
  let w4 := Scenario.world "S4" "completed" {[indexing_cache_key "S4"]} in
  ((fst (create_segment_to_index_task E "S1" None w) = Returned
    ∨ ∃ d, fault E CommitFailure = Some d ∧
           fst (create_segment_to_index_task E "S1" None w) = Raised (Fault d)) ∧
   indexing_cache_key "S1"
     ∉ redis (snd (create_segment_to_index_task E "S1" None w))) ∧
  redis (snd (create_segment_to_index_task E "S4" None w4)) = redis w4.
Proof.
  intros E w w4. split.
  - apply (proj1 (lock_released_after_waiting_run E "S1" None w
                    (Scenario.segment "waiting") eq_refl)).
    reflexivity.
  - apply (proj2 (lock_released_after_waiting_run E "S4" None w4
                    (Scenario.segment "completed") eq_refl)).
    discriminate.
Defined.

(** Counterexample to C1 as it was stated: segment [S4] exists, is in
    [indexing] and has its lock marker set; the invocation returns and the
    marker is still there. *)
Lemma lock_kept_when_not_waiting :
  let w := Scenario.world "S4" "indexing" {[indexing_cache_key "S4"]} in
  let E := Scenario.env Scenario.no_fault true true in
  session w !! "S4" = Some (Scenario.segment "indexing") ∧
  fst (create_segment_to_index_task E "S4" None w) = Returned ∧
  indexing_cache_key "S4"
    ∈ redis (snd (create_segment_to_index_task E "S4" None w)).
Proof.
  simpl. split; [reflexivity |]. split; [reflexivity |].
  vm_compute. reflexivity.
Qed.

(** C2 (as amended).  When the identifier does not resolve to a segment
    the function raises [NotFound].  An exception of the guarded block
    does not reach the caller when the commit of the handler goes
    through: the handler takes it and the function returns.  When the
    commit of the handler raises, nothing handles its exception and the
    caller gets it. *)
Theorem guarded_faults_absorbed_unless_handler_fails
    E segment_id keywords w :
  (session w !! segment_id = None →
   fst (create_segment_to_index_task E segment_id keywords w)
   = Raised (NotFound "Segment not found")) ∧
  (∀ segment e0,
     session w !! segment_id = Some segment →
     status segment = "waiting" →
     fst (guarded_block E segment_id segment keywords w) = Raise e0 →
     match fault E CommitFailure with
     | None =>
         fst (create_segment_to_index_task E segment_id keywords w) = Returned
     | Some d =>
         fst (create_segment_to_index_task E segment_id keywords w)
         = Raised (Fault d)
     end).
Proof.
  split.
  - intros Hs. by rewrite (task_body_missing _ _ _ _ Hs).
  - intros segment e0 Hs Hw Hgb.
    destruct (guarded_block E segment_id segment keywords w) as [o wb] eqn:Hb.
    simpl in Hgb. subst o.
    destruct (after_raising_block _ _ _ _ _ _ _ Hs Hw Hb)
      as (s1 & _ & _ & _ & ->).
    by destruct (fault E CommitFailure).
Qed.

Lemma guarded_faults_absorbed_unless_handler_fails_witness :
  let w := Scenario.world "S3" "waiting" ∅ in
  let E := Scenario.env (Scenario.fault_at AddTextsHighQuality "vector store down")
             true true in
  let E' := Scenario.env Scenario.connection_lost true true in
  fst (create_segment_to_index_task E "S0" None w)
  = Raised (NotFound "Segment not found") ∧
  fst (create_segment_to_index_task E "S3" None w) = Returned ∧
  fst (create_segment_to_index_task E' "S3" None w)
  = Raised (Fault "connection lost").
Proof.
  intros w E E'. split; [| split].
  - apply (proj1 (guarded_faults_absorbed_unless_handler_fails E "S0" None w)).
    reflexivity.
  - apply (proj2 (guarded_faults_absorbed_unless_handler_fails E "S3" None w)
             (Scenario.segment "waiting") (Fault "vector store down"));
      reflexivity.
  - apply (proj2 (guarded_faults_absorbed_unless_handler_fails E' "S3" None w)
             (Scenario.segment "waiting") (Fault "connection lost"));
      reflexivity.
Defined.

(** Counterexample to C2 as it was stated: segment [S3] exists and is
    eligible; the final commit raises, the handler runs, and its own
    commit raises too.  The function raises that exception, which is not
    [NotFound]. *)
Lemma handler_commit_fault_crosses :
  let w := Scenario.world "S3" "waiting" {[indexing_cache_key "S3"]} in
  let E := Scenario.env Scenario.connection_lost true true in
  session w !! "S3" = Some (Scenario.segment "waiting") ∧
  fst (create_segment_to_index_task E "S3" None w)
  = Raised (Fault "connection lost") ∧
  Fault "connection lost" ≠ NotFound "Segment not found".
Proof.
  simpl. split; [reflexivity |]. split; [reflexivity | discriminate].
Qed.

(** C3.  On an existing segment whose status is not [waiting] the function
    returns and the world is the one it started in: no row of the session
    is modified, nothing is committed, no index tier is called. *)
Theorem not_waiting_is_noop E segment_id keywords w segment :
  session w !! segment_id = Some segment →
  status segment ≠ "waiting" →
  create_segment_to_index_task E segment_id keywords w = (Returned, w).
Proof. apply task_body_not_waiting. Qed.

Lemma not_waiting_is_noop_witness :
  let w := Scenario.world "S4" "indexing" {[indexing_cache_key "S4"]} in
  create_segment_to_index_task (Scenario.env Scenario.no_fault true true)
    "S4" (Some ["alpha"]) w = (Returned, w).
Proof.
  simpl.
  apply (not_waiting_is_noop _ "S4" _ _ (Scenario.segment "indexing"));
    [reflexivity | discriminate].
Defined.

(** C4.  A segment in [waiting] whose dataset does not resolve, or whose
    document does not resolve, or whose document is disabled, archived or
    not completely indexed: provided the status update, its commit and the
    loading of the parents do not raise, the function returns, the row is
    the initial one with status [indexing] and [indexing_at] stamped, in
    the session and committed, and no index tier has been called. *)
Theorem ineligible_segment_stays_indexing E segment_id keywords w segment :
  session w !! segment_id = Some segment →
  status segment = "waiting" →
  quiet E [UpdateIndexing; CommitIndexing; BuildDocument; LoadDataset] →
  (dataset_of E (dataset_id segment) = None ∨
   (fault E LoadDocument = None ∧
    (document_of E (document_id segment) = None ∨
     ∃ d, document_of E (document_id segment) = Some d ∧
          (DatasetDocument.enabled d = false ∨
           DatasetDocument.archived d = true ∨
           DatasetDocument.indexing_status d ≠ "completed")))) →
  let s' := to_indexing (utcnow_indexing E) segment in
  status s' = "indexing" ∧
  indexing_at s' = Some (utcnow_indexing E) ∧
  create_segment_to_index_task E segment_id keywords w =
  (Returned,
   mkWorld (<[segment_id := s']> (session w)) (<[segment_id := s']> (session w))
           (index_calls w) (redis w ∖ {[indexing_cache_key segment_id]})).
Proof.
  intros Hs Hw Hq Hne. simpl. split; [reflexivity |]. split; [reflexivity |].
  rewrite (task_body_waiting _ _ _ _ _ Hs Hw).
  unfold_task. use_quiet Hq. simpl.
  rewrite (alter_alt_Some _ _ _ _ Hs).
  destruct (dataset_of E (dataset_id segment)) as [dataset|] eqn:Hds;
    [| reflexivity].
  destruct Hne as [[=] | (Hld & Hdoc)]. rewrite Hld.
  destruct Hdoc as [-> | (d & -> & Hd)]; [reflexivity |].
  by rewrite (document_invalid_true d Hd).
Qed.

Lemma ineligible_segment_stays_indexing_witness :
  let E := Scenario.env_with (Some Scenario.archived_document)
             Scenario.no_fault true true in
  let w := Scenario.world "S5" "waiting" {[indexing_cache_key "S5"]} in
  let s' := to_indexing (utcnow_indexing E) (Scenario.segment "waiting") in
  status s' = "indexing" ∧
  indexing_at s' = Some (utcnow_indexing E) ∧
  create_segment_to_index_task E "S5" None w =
  (Returned,
   mkWorld (<["S5" := s']> (session w)) (<["S5" := s']> (session w))
           (index_calls w) (redis w ∖ {[indexing_cache_key "S5"]})).
Proof.
  intros E w.
  apply (ineligible_segment_stays_indexing E "S5" None w
           (Scenario.segment "waiting")).
  - reflexivity.
  - reflexivity.
  - by repeat constructor.
  - right. split; [reflexivity |]. right.
    exists Scenario.archived_document. split; [reflexivity |].
    right. left. reflexivity.
Defined.

(** C5 (as amended).  A segment in [waiting] that passes the eligibility
    checks, in an invocation where no call raises or where the commit of
    the handler goes through: the function returns, and the row, in the
    session and committed, has status [completed] with [completed_at]
    stamped, which happens when no call on the way raises, or status
    [error], which happens when one does; it cannot have both. *)
Theorem eligible_segment_ends_completed_or_error
    E segment_id keywords w segment dataset :
  session w !! segment_id = Some segment →
  status segment = "waiting" →
  eligible E segment dataset →
  let path := sites_on_path E dataset keywords in
  first_fault E path = None ∨ fault E CommitFailure = None →
  let '(r, w') := create_segment_to_index_task E segment_id keywords w in
  r = Returned ∧
  ∃ s', session w' !! segment_id = Some s' ∧
        committed w' !! segment_id = Some s' ∧
        ((status s' = "completed" ∧
          completed_at s' = Some (utcnow_completed E) ∧
          quiet E path)
         ∨ (status s' = "error" ∧ ∃ c d, first_fault E path = Some (c, d))) ∧
        ¬ (status s' = "completed" ∧ status s' = "error").
Proof.
  intros Hs Hw Hel path Hok.
  pose proof (guarded_block_eligible E segment_id segment dataset keywords w Hel)
    as Hb.
  pose proof (guarded_block_outcome E segment_id segment dataset keywords w Hel)
    as Hout.
  fold path in Hout.
  destruct (guarded_block E segment_id segment keywords w) as [o wb] eqn:Hgb.
  cbn [fst] in Hout.
  destruct Hb as [(-> & Hsess & Hcom) | (e & ->)].
  - rewrite (task_body_waiting _ _ _ _ _ Hs Hw), Hgb. simpl.
    split; [reflexivity |].
    exists (to_completed (utcnow_completed E)
              (to_indexing (utcnow_indexing E) segment)).
    rewrite Hcom, Hsess, lookup_alter_eq, Hs. simpl.
    split; [reflexivity |]. split; [reflexivity |].
    split; [| by intros [_ ?]].
    left. split; [reflexivity |]. split; [reflexivity |].
    apply first_fault_None.
    by destruct (first_fault E path) as [[c d]|].
  - assert (fault E CommitFailure = None) as Hcf.
    { destruct Hok as [Hnone | Hcf]; [| done].
      rewrite Hnone in Hout. done. }
    destruct (after_raising_block _ _ _ _ _ _ _ Hs Hw Hgb)
      as (s1 & _ & _ & _ & ->).
    rewrite Hcf.
    split; [reflexivity |]. exists (failed E e s1).
    cbn [session committed]. rewrite lookup_insert_eq.
    split; [reflexivity |]. split; [reflexivity |].
    split; [| by intros [? _]].
    right. split; [reflexivity |].
    destruct (first_fault E path) as [[c d]|]; [by exists c, d | done].
Qed.

Lemma eligible_segment_ends_completed_or_error_witness :
  let E := Scenario.env Scenario.no_fault true false in
  let w := Scenario.world "S1" "waiting" {[indexing_cache_key "S1"]} in
  let path := sites_on_path E Scenario.dataset None in
  let '(r, w') := create_segment_to_index_task E "S1" None w in
  r = Returned ∧
  ∃ s', session w' !! "S1" = Some s' ∧
        committed w' !! "S1" = Some s' ∧
        ((status s' = "completed" ∧
          completed_at s' = Some (utcnow_completed E) ∧
          quiet E path)
         ∨ (status s' = "error" ∧ ∃ c d, first_fault E path = Some (c, d))) ∧
        ¬ (status s' = "completed" ∧ status s' = "error").
Proof.
  intros E w.
  apply (eligible_segment_ends_completed_or_error E "S1" None w
           (Scenario.segment "waiting") Scenario.dataset).
  - reflexivity.
  - reflexivity.
  - split; [reflexivity |]. exists Scenario.good_document. by repeat split.
  - left. reflexivity.
Defined.

(** Counterexample to C5 as it was stated: segment [S3] is in [waiting]
    and eligible; the final commit raises and so does the commit of the
    handler.  The function raises, and the committed row is the one of
    the first commit, in [indexing]: neither [completed] nor [error]. *)
Lemma eligible_segment_left_indexing :
  let w := Scenario.world "S3" "waiting" {[indexing_cache_key "S3"]} in
  let E := Scenario.env Scenario.connection_lost true true in
  let w' := snd (create_segment_to_index_task E "S3" None w) in
  session w !! "S3" = Some (Scenario.segment "waiting") ∧
  eligible E (Scenario.segment "waiting") Scenario.dataset ∧
  fst (create_segment_to_index_task E "S3" None w)
  = Raised (Fault "connection lost") ∧
  status <$> committed w' !! "S3" = Some "indexing".
Proof.
  simpl. split; [reflexivity |]. split.
  - split; [reflexivity |]. exists Scenario.good_document. by repeat split.
  - split; [reflexivity |]. vm_compute. reflexivity.
Qed.

(** C6.  An eligible segment in [waiting] whose processing reaches the
    economy tier, with that tier configured.  With a non-empty keyword
    list the tier receives one call, [create_segment_keywords] with the
    node identifier of the segment and the keywords supplied, and no
    [add_texts]; with no list or an empty one it receives [add_texts] on
    the document built from the segment.  The calls of the invocation are
    those of the high-quality tier followed by this one. *)
Theorem economy_tier_uses_supplied_keywords
    E segment_id keywords w segment dataset index :
  session w !! segment_id = Some segment →
  status segment = "waiting" →
  eligible E segment dataset →
  quiet E (before_tiers ++ [GetIndexHighQuality; GetIndexEconomy]) →
  (get_index E dataset "high_quality" ≠ None →
   fault E AddTextsHighQuality = None) →
  get_index E dataset "economy" = Some index →
  let calls :=
    index_calls (snd (create_segment_to_index_task E segment_id keywords w)) in
  (∀ ks, keywords = Some ks → ks ≠ [] →
         calls = (index_calls w ++ high_quality_calls E dataset segment
                  ++ [create_segment_keywords index (index_node_id segment) ks])%list) ∧
  (keywords = None ∨ keywords = Some [] →
   calls = (index_calls w ++ high_quality_calls E dataset segment
            ++ [add_texts index [make_document segment] None])%list).
Proof.
  intros Hs Hw (Hds & d & Hdoc & Hen & Har & Hst) Hq Hhq Heco.
  pose proof (document_invalid_false d Hen Har Hst) as Hval.
  simpl. rewrite (task_body_waiting _ _ _ _ _ Hs Hw).
  unfold high_quality_calls. unfold_task. rewrite Hds, Hdoc.
  use_quiet Hq. simpl. rewrite Hval, Heco.
  assert (∀ ks, keywords_given keywords = true → keywords = Some ks →
                keywords_list keywords = ks) as Hks by (by intros ks _ ->).
  split.
  - intros ks Hk Hne.
    assert (keywords_given keywords = true) as Hg
      by (subst; by apply keywords_given_nonempty).
    rewrite Hg, (Hks ks Hg Hk).
    destruct (get_index E dataset "high_quality") as [hq|]; simpl;
      [rewrite Hhq by done; simpl |];
      (at_fault E CreateSegmentKeywords; [by destruct (fault E CommitFailure); rewrite <- ?app_assoc |]);
      (at_fault E UpdateCompleted; [by destruct (fault E CommitFailure); rewrite <- ?app_assoc |]);
      at_fault E CommitCompleted; by destruct (fault E CommitFailure); rewrite <- ?app_assoc.
  - intros Hk.
    assert (keywords_given keywords = false) as -> by (by destruct Hk as [-> | ->]).
    destruct (get_index E dataset "high_quality") as [hq|]; simpl;
      [rewrite Hhq by done; simpl |];
      (at_fault E AddTextsEconomy; [by destruct (fault E CommitFailure); rewrite <- ?app_assoc |]);
      (at_fault E UpdateCompleted; [by destruct (fault E CommitFailure); rewrite <- ?app_assoc |]);
      at_fault E CommitCompleted; by destruct (fault E CommitFailure); rewrite <- ?app_assoc.
Qed.

Lemma economy_tier_uses_supplied_keywords_witness :
  let E := Scenario.env Scenario.no_fault true true in
  let w := Scenario.world "S2" "waiting" {[indexing_cache_key "S2"]} in
  let segment := Scenario.segment "waiting" in
  index_calls
    (snd (create_segment_to_index_task E "S2" (Some ["alpha"; "beta"]) w))
  = (index_calls w ++ high_quality_calls E Scenario.dataset segment
     ++ [create_segment_keywords Scenario.keyword_index (index_node_id segment)
           ["alpha"; "beta"]])%list ∧
  index_calls (snd (create_segment_to_index_task E "S2" (Some []) w))
  = (index_calls w ++ high_quality_calls E Scenario.dataset segment
     ++ [add_texts Scenario.keyword_index [make_document segment] None])%list.
Proof.
  intros E w segment.
  assert (eligible E segment Scenario.dataset) as Hel.
  { split; [reflexivity |]. exists Scenario.good_document. by repeat split. }
  assert (quiet E (before_tiers ++ [GetIndexHighQuality; GetIndexEconomy]))
    as Hq by (by repeat constructor).
  split.
  - apply (proj1 (economy_tier_uses_supplied_keywords E "S2"
                    (Some ["alpha"; "beta"]) w segment Scenario.dataset
                    Scenario.keyword_index eq_refl eq_refl Hel Hq
                    (fun _ => eq_refl) eq_refl)
             ["alpha"; "beta"]).
    + reflexivity.
    + discriminate.
  - apply (proj2 (economy_tier_uses_supplied_keywords E "S2"
                    (Some []) w segment Scenario.dataset
                    Scenario.keyword_index eq_refl eq_refl Hel Hq
                    (fun _ => eq_refl) eq_refl)).
    right. reflexivity.
Defined.

(** C7 (as amended).  An eligible segment in [waiting] on whose way
    through the guarded block a call raises: a write to an index tier,
    the final update or its commit, the construction of the document, or
    any call before them.  With [d] the description of the first
    exception raised, the handler gives the row of the segment status
    [error], [enabled] false, [disabled_at] the time it reads and [error]
    equal to [d].  When the commit of the handler goes through, this row
    is the committed one and the function returns without raising.  When
    that commit raises, the committed rows stay those the guarded block
    left and the caller gets the exception of the commit. *)
Theorem fault_is_recorded E segment_id keywords w segment dataset c d :
  session w !! segment_id = Some segment →
  status segment = "waiting" →
  eligible E segment dataset →
  first_fault E (sites_on_path E dataset keywords) = Some (c, d) →
  let '(r, w') := create_segment_to_index_task E segment_id keywords w in
  (∃ s', session w' !! segment_id = Some s' ∧
         status s' = "error" ∧
         enabled s' = false ∧
         disabled_at s' = Some (utcnow_disabled E) ∧
         error s' = Some d) ∧
  match fault E CommitFailure with
  | None => r = Returned ∧ committed w' = session w'
  | Some d' =>
      r = Raised (Fault d') ∧
      committed w' =
        committed (snd (guarded_block E segment_id segment keywords w))
  end.
Proof.
  intros Hs Hw Hel Hff.
  pose proof (guarded_block_outcome E segment_id segment dataset keywords w Hel)
    as Hout.
  rewrite Hff in Hout.
  destruct (guarded_block E segment_id segment keywords w) as [o wb] eqn:Hgb.
  cbn [fst] in Hout. subst o.
  destruct (after_raising_block _ _ _ _ _ _ _ Hs Hw Hgb)
    as (s1 & _ & _ & _ & ->).
  destruct (fault E CommitFailure) as [d'|];
    (split; [exists (failed E (Fault d) s1); simpl; by rewrite lookup_insert_eq
            | done]).
Qed.

Lemma fault_is_recorded_witness :
  let E := Scenario.env (Scenario.fault_at AddTextsHighQuality "vector store down")
             true true in
  let w := Scenario.world "S3" "waiting" {[indexing_cache_key "S3"]} in
  let '(r, w') := create_segment_to_index_task E "S3" None w in
  (∃ s', session w' !! "S3" = Some s' ∧
         status s' = "error" ∧
         enabled s' = false ∧
         disabled_at s' = Some (utcnow_disabled E) ∧
         error s' = Some "vector store down") ∧
  match fault E CommitFailure with
  | None => r = Returned ∧ committed w' = session w'
  | Some d' =>
      r = Raised (Fault d') ∧
      committed w' =
        committed (snd (guarded_block E "S3" (Scenario.segment "waiting") None w))
  end.
Proof.
  intros E w.
  apply (fault_is_recorded E "S3" None w
           (Scenario.segment "waiting") Scenario.dataset
           AddTextsHighQuality "vector store down").
  - reflexivity.
  - reflexivity.
  - split; [reflexivity |]. exists Scenario.good_document. by repeat split.
  - reflexivity.
Defined.

(** Counterexample to C7 as it was stated: segment [S3] is in [waiting]
    and eligible, and the final commit raises, a persistence error after
    the eligibility checks.  The commit of the handler raises as well:
    the function raises to its caller, and the committed row has status
    [indexing], not [error]. *)
Lemma persistence_fault_not_absorbed :
  let w := Scenario.world "S3" "waiting" {[indexing_cache_key "S3"]} in
  let E := Scenario.env Scenario.connection_lost true true in
  let w' := snd (create_segment_to_index_task E "S3" None w) in
  eligible E (Scenario.segment "waiting") Scenario.dataset ∧
  first_fault E (sites_on_path E Scenario.dataset None)
  = Some (CommitCompleted, "connection lost") ∧
  fst (create_segment_to_index_task E "S3" None w)
  = Raised (Fault "connection lost") ∧
  status <$> committed w' !! "S3" = Some "indexing".
Proof.
  simpl. split.
  - split; [reflexivity |]. exists Scenario.good_document. by repeat split.
  - split; [reflexivity |]. split; [reflexivity |]. vm_compute. reflexivity.
Qed.

(** C8.  An eligible segment in [waiting] whose processing reaches the
    tiers.  If the high-quality tier is configured and its [add_texts]
    raises, that call, with [duplicate_check=True], is the only one made:
    the economy tier is not called.  If it does not raise, the calls made
    are the one of the high-quality tier, with [duplicate_check=True],
    followed by the one of the economy tier, each left out when its tier
    is not configured.  If no call raises at all, whichever tiers are
    configured, the segment ends [completed]. *)
Theorem tiers_are_written_in_order E segment_id keywords w segment dataset :
  session w !! segment_id = Some segment →
  status segment = "waiting" →
  eligible E segment dataset →
  quiet E (before_tiers ++ [GetIndexHighQuality]) →
  let w' := snd (create_segment_to_index_task E segment_id keywords w) in
  (∀ index d,
     get_index E dataset "high_quality" = Some index →
     fault E AddTextsHighQuality = Some d →
     index_calls w' =
       (index_calls w
        ++ [add_texts index [make_document segment] (Some true)])%list) ∧
  ((get_index E dataset "high_quality" ≠ None →
    fault E AddTextsHighQuality = None) →
   fault E GetIndexEconomy = None →
   index_calls w' =
     (index_calls w ++ high_quality_calls E dataset segment
      ++ economy_calls E dataset segment keywords)%list) ∧
  (quiet E all_sites →
   status <$> session w' !! segment_id = Some "completed").
Proof.
  intros Hs Hw (Hds & d & Hdoc & Hen & Har & Hst) Hq.
  pose proof (document_invalid_false d Hen Har Hst) as Hval.
  simpl. rewrite (task_body_waiting _ _ _ _ _ Hs Hw).
  unfold high_quality_calls, economy_calls. unfold_task. rewrite Hds, Hdoc.
  use_quiet Hq. simpl. rewrite Hval.
  split; [| split].
  - intros index msg -> ->. by destruct (fault E CommitFailure).
  - intros Hhq ->.
    destruct (get_index E dataset "high_quality") as [hq|]; simpl;
      [rewrite Hhq by done; simpl |];
      (destruct (get_index E dataset "economy") as [eco|]; simpl;
       [destruct (keywords_given keywords); simpl;
        [at_fault E CreateSegmentKeywords; [by destruct (fault E CommitFailure); rewrite <- ?app_assoc |]
        |at_fault E AddTextsEconomy; [by destruct (fault E CommitFailure); rewrite <- ?app_assoc |]] |]);
      (at_fault E UpdateCompleted; [by destruct (fault E CommitFailure); rewrite <- ?app_assoc, ?app_nil_r |]);
      at_fault E CommitCompleted; by destruct (fault E CommitFailure); rewrite <- ?app_assoc, ?app_nil_r.
  - intros Hall. use_quiet Hall.
    destruct (get_index E dataset "high_quality") as [hq|]; simpl;
      (destruct (get_index E dataset "economy") as [eco|]; simpl;
       [destruct (keywords_given keywords); simpl |]);
      by rewrite !lookup_alter_eq, Hs.
Qed.

Lemma tiers_are_written_in_order_witness :
  let E := Scenario.env (Scenario.fault_at AddTextsHighQuality "vector store down")
             true true in
  let E' := Scenario.env Scenario.no_fault false true in
  let w := Scenario.world "S3" "waiting" {[indexing_cache_key "S3"]} in
  let segment := Scenario.segment "waiting" in
  index_calls (snd (create_segment_to_index_task E "S3" None w)) =
  (index_calls w
   ++ [add_texts Scenario.vector_index [make_document segment] (Some true)])%list ∧
  index_calls (snd (create_segment_to_index_task E' "S3" None w)) =
  (index_calls w ++ high_quality_calls E' Scenario.dataset segment
   ++ economy_calls E' Scenario.dataset segment None)%list ∧
  status <$> session (snd (create_segment_to_index_task E' "S3" None w)) !! "S3"
  = Some "completed".
Proof.
  intros E E' w segment.
  assert (eligible E segment Scenario.dataset ∧ eligible E' segment Scenario.dataset)
    as [Hel Hel'].
  { split; (split; [reflexivity |]); exists Scenario.good_document;
      by repeat split. }
  split; [| split].
  - apply (proj1 (tiers_are_written_in_order E "S3" None w segment
                    Scenario.dataset eq_refl eq_refl Hel
                    ltac:(by repeat constructor))
             Scenario.vector_index "vector store down").
    + reflexivity.
    + reflexivity.
  - apply (proj1 (proj2 (tiers_are_written_in_order E' "S3" None w segment
                           Scenario.dataset eq_refl eq_refl Hel'
                           ltac:(by repeat constructor)))).
    + reflexivity.
    + reflexivity.
  - apply (proj2 (proj2 (tiers_are_written_in_order E' "S3" None w segment
                           Scenario.dataset eq_refl eq_refl Hel'
                           ltac:(by repeat constructor)))).
    by repeat constructor.
Defined.



(** C10.  When the guarded block raises, the handler changes [status],
    [enabled], [disabled_at] and [error] only: the final row agrees with
    the row the handler found on every other column, [indexing_at] and
    [completed_at] included; its content, node identifier, node hash,
    document and dataset identifiers are those of the row the function
    loaded; and when the first update went through, [indexing_at] still
    holds the time stamped by it. *)
Theorem handler_changes_four_columns_only E segment_id keywords w segment e wb :
  session w !! segment_id = Some segment →
  status segment = "waiting" →
  guarded_block E segment_id segment keywords w = (Raise e, wb) →
  let w' := snd (create_segment_to_index_task E segment_id keywords w) in
  ∃ s1 s', session wb !! segment_id = Some s1 ∧
           session w' !! segment_id = Some s' ∧
           content s' = content s1 ∧
           index_node_id s' = index_node_id s1 ∧
           index_node_hash s' = index_node_hash s1 ∧
           document_id s' = document_id s1 ∧
           dataset_id s' = dataset_id s1 ∧
           indexing_at s' = indexing_at s1 ∧
           completed_at s' = completed_at s1 ∧
           content s' = content segment ∧
           index_node_id s' = index_node_id segment ∧
           index_node_hash s' = index_node_hash segment ∧
           document_id s' = document_id segment ∧
           dataset_id s' = dataset_id segment ∧
           (fault E UpdateIndexing = None →
            indexing_at s' = Some (utcnow_indexing E)).
Proof.
  intros Hs Hw Hgb. simpl.
  destruct (after_raising_block _ _ _ _ _ _ _ Hs Hw Hgb)
    as (s1 & Hs1 & Hfr & Hat & ->).
  destruct Hfr as (? & ? & ? & ? & ? & _).
  exists s1, (failed E e s1).
  destruct (fault E CommitFailure); simpl; rewrite lookup_insert_eq;
    repeat split; done.
Qed.

Lemma handler_changes_four_columns_only_witness :
  let E := Scenario.env (Scenario.fault_at CommitCompleted "connection lost")
             true true in
  let w := Scenario.world "S3" "waiting" {[indexing_cache_key "S3"]} in
  let segment := Scenario.segment "waiting" in
  let wb := snd (guarded_block E "S3" segment None w) in
  let w' := snd (create_segment_to_index_task E "S3" None w) in
  ∃ s1 s', session wb !! "S3" = Some s1 ∧
           session w' !! "S3" = Some s' ∧
           content s' = content s1 ∧
           index_node_id s' = index_node_id s1 ∧
           index_node_hash s' = index_node_hash s1 ∧
           document_id s' = document_id s1 ∧
           dataset_id s' = dataset_id s1 ∧
           indexing_at s' = indexing_at s1 ∧
           completed_at s' = completed_at s1 ∧
           content s' = content segment ∧
           index_node_id s' = index_node_id segment ∧
           index_node_hash s' = index_node_hash segment ∧
           document_id s' = document_id segment ∧
           dataset_id s' = dataset_id segment ∧
           (fault E UpdateIndexing = None →
            indexing_at s' = Some (utcnow_indexing E)).
Proof.
  intros E w segment wb.
  apply (handler_changes_four_columns_only E "S3" None w segment
           (Fault "connection lost") wb).
  - reflexivity.
  - reflexivity.
  - reflexivity.
Defined.

(** ** Further properties of the task *)

(** The ordered case analysis of the guarded block: one case for each way
    it can end, [leaf] being run on each, with the equations of the
    cases in the context. *)
Ltac block_cases E segment keywords leaf :=
  unfold_task;
  (at_fault E UpdateIndexing; [leaf |]);
  (at_fault E CommitIndexing; [leaf |]);
  (at_fault E BuildDocument; [leaf |]);
  (at_fault E LoadDataset; [leaf |]);
  (destruct (dataset_of E (dataset_id segment)) as [?dataset|] eqn:?Hds;
   [| leaf]);
  (at_fault E LoadDocument; [leaf |]);
  (destruct (document_of E (document_id segment)) as [?d|] eqn:?Hdoc;
   [| leaf]);
  (match goal with
   | |- context [document_invalid ?d] =>
       destruct (document_invalid d) eqn:?Hval; [leaf |]
   end);
  (at_fault E GetIndexHighQuality; [leaf |]);
  (match goal with
   | |- context [get_index E ?ds "high_quality"] =>
       destruct (get_index E ds "high_quality") as [?hq|] eqn:?Hhq; simpl;
       [at_fault E AddTextsHighQuality; [leaf |] |];
       (at_fault E GetIndexEconomy; [leaf |]);
       (destruct (get_index E ds "economy") as [?eco|] eqn:?Heco; simpl;
        [destruct (keywords_given keywords) eqn:?Hkw; simpl;
         [at_fault E CreateSegmentKeywords; [leaf |]
         |at_fault E AddTextsEconomy; [leaf |]] |])
   end);
  (at_fault E UpdateCompleted; [leaf |]);
  at_fault E CommitCompleted; leaf.

Lemma document_invalid_false_inv d :
  document_invalid d = false →
  DatasetDocument.enabled d = true ∧
  DatasetDocument.archived d = false ∧
  DatasetDocument.indexing_status d = "completed".
Proof.
  unfold document_invalid.
  destruct (DatasetDocument.enabled d), (DatasetDocument.archived d),
    (String.eqb_spec (DatasetDocument.indexing_status d) "completed");
    simpl; intros; done.
Qed.

Ltac cases_leaf :=
  first
    [ (* the block raised *)
      by repeat eexists
    | (* an eligibility exit *)
      split; [reflexivity |];
      intros ? (? & ? & ? & Hen & Har & Hst);
      pose proof (document_invalid_false _ Hen Har Hst); congruence
    | (* the block ran to its end *)
      match goal with
      | Hval : document_invalid _ = false |- _ =>
          apply document_invalid_false_inv in Hval
      end;
      eexists; split; [split; [eassumption | by eexists] |];
      split;
      [ unfold quiet, sites_on_path, sites_after_eligibility, before_tiers;
        repeat match goal with H : get_index _ _ _ = _ |- _ => rewrite H end;
        repeat match goal with H : keywords_given _ = _ |- _ => rewrite H end;
        simpl; by repeat constructor
      | unfold high_quality_calls, economy_calls;
        repeat match goal with H : get_index _ _ _ = _ |- _ => rewrite H end;
        repeat match goal with H : keywords_given _ = _ |- _ => rewrite H end;
        simpl; rewrite ?alter_alter_eq, <- ?app_assoc, ?app_nil_r;
        reflexivity ] ].

(** The three ways the guarded block ends, and what each tells: a
    [return] is an eligibility exit, taken after the status update was
    committed and before any tier was called; the end of the block is
    reached by an eligible segment only, with no call raising and the
    configured tiers written; an exception is the one of a collaborator
    call. *)
Lemma guarded_block_cases E segment_id segment keywords w :
  let '(o, w1) := guarded_block E segment_id segment keywords w in
  match o with
  | Return =>
      w1 = mkWorld
             (alter (to_indexing (utcnow_indexing E)) segment_id (session w))
             (alter (to_indexing (utcnow_indexing E)) segment_id (session w))
             (index_calls w) (redis w) ∧
      ∀ dataset, ¬ eligible E segment dataset
  | Normal _ =>
      ∃ dataset,
        eligible E segment dataset ∧
        quiet E (sites_on_path E dataset keywords) ∧
        w1 = mkWorld
               (alter (to_completed (utcnow_completed E)
                       ∘ to_indexing (utcnow_indexing E))
                  segment_id (session w))
               (alter (to_completed (utcnow_completed E)
                       ∘ to_indexing (utcnow_indexing E))
                  segment_id (session w))
               (index_calls w ++ high_quality_calls E dataset segment
                ++ economy_calls E dataset segment keywords)%list
               (redis w)
  | Raise e => ∃ c d, fault E c = Some d ∧ e = Fault d
  end.
Proof.
  block_cases E segment keywords cases_leaf.
Qed.

Lemma keywords_given_true_inv keywords :
  keywords_given keywords = true →
  keywords = Some (keywords_list keywords) ∧ keywords_list keywords ≠ [].
Proof. destruct keywords as [[|k ks]|]; simpl; by intros. Qed.

Ltac calls_leaf :=
  try match goal with
      | Hkw : keywords_given _ = true |- _ =>
          apply keywords_given_true_inv in Hkw as [? ?]
      end;
  first [ exists []; split; [by rewrite app_nil_r |]
        | eexists [_]; split; [reflexivity |]
        | eexists [_; _]; split; [by rewrite <- app_assoc |] ];
  (split; [simpl; lia |]);
  by repeat constructor.

(** The calls the guarded block makes on the index objects: at most two,
    all about the segment. *)
Lemma guarded_block_calls E segment_id segment keywords w :
  ∃ l, index_calls (snd (guarded_block E segment_id segment keywords w))
       = (index_calls w ++ l)%list ∧
       (length l ≤ 2)%nat ∧
       Forall (call_for_segment segment keywords) l.
Proof.
  block_cases E segment keywords calls_leaf.
Qed.

(** The guarded block does not read redis. *)
Lemma guarded_block_with_redis E segment_id segment keywords w keys :
  guarded_block E segment_id segment keywords (with_redis keys w) =
  (fst (guarded_block E segment_id segment keywords w),
   with_redis keys (snd (guarded_block E segment_id segment keywords w))).
Proof.
  unfold with_redis. block_cases E segment keywords ltac:(reflexivity).
Qed.

(** Without an economy index the guarded block does not look at the
    keywords. *)
Lemma guarded_block_without_economy E segment_id segment keywords keywords' w :
  (∀ dataset, get_index E dataset "economy" = None) →
  guarded_block E segment_id segment keywords w =
  guarded_block E segment_id segment keywords' w.
Proof.
  intros Heco.
  block_cases E segment keywords
    ltac:(first [ reflexivity
                | by match goal with
                     | H : get_index _ _ "economy" = Some _ |- _ =>
                         rewrite Heco in H
                     end ]).
Qed.

Lemma append_cons c (a b : string) : String c a +:+ b = String c (a +:+ b).
Proof. reflexivity. Qed.

Lemma length_append (a b : string) :
  String.length (a +:+ b) = (String.length a + String.length b)%nat.
Proof.
  induction a as [|c a IH]; [reflexivity |].
  rewrite append_cons. simpl. by rewrite IH.
Qed.

Lemma append_inj_r (s a b : string) : a +:+ s = b +:+ s → a = b.
Proof.
  revert b. induction a as [|c a IH]; intros [|c' b] Heq.
  - reflexivity.
  - apply (f_equal String.length) in Heq.
    rewrite !length_append in Heq. simpl in Heq. lia.
  - apply (f_equal String.length) in Heq.
    rewrite !length_append in Heq. simpl in Heq. lia.
  - rewrite !append_cons in Heq. injection Heq as -> Heq.
    by rewrite (IH b Heq).
Qed.

Lemma indexing_cache_key_inj a b :
  indexing_cache_key a = indexing_cache_key b → a = b.
Proof.
  unfold indexing_cache_key. intros Heq.
  apply (String.app_inj "segment_") in Heq.
  by apply append_inj_r in Heq.
Qed.

(** What an invocation does to redis: nothing, or the deletion of the
    marker of its segment. *)
Lemma run_redis E segment_id keywords w :
  let w' := snd (create_segment_to_index_task E segment_id keywords w) in
  redis w' = redis w ∨ redis w' = redis w ∖ {[indexing_cache_key segment_id]}.
Proof.
  simpl. destruct (session w !! segment_id) as [segment|] eqn:Hs.
  - destruct (decide (status segment = "waiting")) as [Hw|Hw].
    + destruct (after_waiting_run E _ keywords _ _ Hs Hw)
        as (r & w1 & -> & _ & Hr & _).
      by right.
    + rewrite (task_body_not_waiting _ _ _ _ _ Hs Hw). by left.
  - rewrite (task_body_missing _ _ _ _ Hs). by left.
Qed.

(** The world after an invocation on a segment in [waiting], by the way
    the guarded block ended. *)
Lemma run_waiting_cases E segment_id keywords w segment :
  session w !! segment_id = Some segment →
  status segment = "waiting" →
  let r := fst (create_segment_to_index_task E segment_id keywords w) in
  let w' := snd (create_segment_to_index_task E segment_id keywords w) in
  let key := indexing_cache_key segment_id in
  (let s' := to_indexing (utcnow_indexing E) segment in
   r = Returned ∧
   w' = mkWorld (<[segment_id := s']> (session w))
          (<[segment_id := s']> (session w))
          (index_calls w) (redis w ∖ {[key]}) ∧
   ∀ dataset, ¬ eligible E segment dataset)
  ∨ (let s' := to_completed (utcnow_completed E)
                 (to_indexing (utcnow_indexing E) segment) in
     ∃ dataset,
       r = Returned ∧
       eligible E segment dataset ∧
       quiet E (sites_on_path E dataset keywords) ∧
       w' = mkWorld (<[segment_id := s']> (session w))
              (<[segment_id := s']> (session w))
              (index_calls w ++ high_quality_calls E dataset segment
               ++ economy_calls E dataset segment keywords)%list
              (redis w ∖ {[key]}))
  ∨ (∃ c d s1,
       fault E c = Some d ∧ block_frame segment s1 ∧
       session w' !! segment_id = Some (failed E (Fault d) s1) ∧
       (r = Returned → committed w' = session w')).
Proof.
  intros Hs Hw. simpl.
  pose proof (guarded_block_cases E segment_id segment keywords w) as Hc.
  destruct (guarded_block E segment_id segment keywords w) as [o wb] eqn:Hgb.
  destruct o as [[]| |e].
  - right. left. destruct Hc as (dataset & Hel & Hq & ->).
    exists dataset.
    rewrite (task_body_waiting _ _ _ _ _ Hs Hw), Hgb. simpl.
    by rewrite (alter_alt_Some _ _ _ _ Hs).
  - left. destruct Hc as (-> & Hne).
    rewrite (task_body_waiting _ _ _ _ _ Hs Hw), Hgb. simpl.
    by rewrite (alter_alt_Some _ _ _ _ Hs).
  - right. right. destruct Hc as (c & d & Hf & ->).
    destruct (after_raising_block _ _ _ _ _ _ _ Hs Hw Hgb)
      as (s1 & _ & Hfr & _ & ->).
    exists c, d, s1.
    destruct (fault E CommitFailure); simpl; by rewrite lookup_insert_eq.
Qed.

(** X1.  An invocation leaves the rows of the other segments in the
    session as they were. *)
Theorem other_rows_untouched E segment_id keywords w other :
  other ≠ segment_id →
  session (snd (create_segment_to_index_task E segment_id keywords w)) !! other
  = session w !! other.
Proof.
  intros Hne. destruct (session w !! segment_id) as [segment|] eqn:Hs.
  - destruct (decide (status segment = "waiting")) as [Hw|Hw].
    + rewrite (task_body_waiting _ _ _ _ _ Hs Hw).
      pose proof (guarded_block_spec E segment_id segment keywords w) as Hb.
      destruct (guarded_block E segment_id segment keywords w) as [o wb].
      destruct Hb as (_ & f & Hf & _).
      destruct o as [[]| |e]; simpl;
        rewrite ?record_failure_spec; try destruct (fault E CommitFailure);
        simpl; rewrite Hf, ?lookup_alter_ne; done.
    + by rewrite (task_body_not_waiting _ _ _ _ _ Hs Hw).
  - by rewrite (task_body_missing _ _ _ _ Hs).
Qed.

Lemma other_rows_untouched_witness :
  let seg := Scenario.segment "waiting" in
  let w := mkWorld (<["S2" := seg]> {["S1" := seg]})
             (<["S2" := seg]> {["S1" := seg]}) [] ∅ in
  let E := Scenario.env Scenario.no_fault true true in
  session (snd (create_segment_to_index_task E "S1" None w)) !! "S2"
  = session w !! "S2".
Proof.
  intros seg w E. apply (other_rows_untouched E "S1" None w "S2").
  discriminate.
Defined.

(** X2.  An invocation never adds a key to redis, and the only key it
    may remove is the lock marker of its own segment. *)
Theorem redis_loses_own_marker_only E segment_id keywords w :
  let w' := snd (create_segment_to_index_task E segment_id keywords w) in
  redis w' ⊆ redis w ∧
  redis w ∖ {[indexing_cache_key segment_id]} ⊆ redis w'.
Proof.
  simpl. destruct (run_redis E segment_id keywords w) as [-> | ->].
  - split; [done |]. apply subseteq_difference_l. done.
  - split; [| done]. apply subseteq_difference_l. done.
Qed.

(** X3.  The lock markers of two different segments are different keys,
    and an invocation for one segment leaves the marker of the other as
    it was: set if it was set, absent if it was absent. *)
Theorem other_marker_untouched E segment_id keywords w other :
  other ≠ segment_id →
  indexing_cache_key other ≠ indexing_cache_key segment_id ∧
  (indexing_cache_key other
     ∈ redis (snd (create_segment_to_index_task E segment_id keywords w))
   ↔ indexing_cache_key other ∈ redis w).
Proof.
  intros Hne.
  assert (indexing_cache_key other ≠ indexing_cache_key segment_id) as Hk
    by (intros Heq; by apply Hne, indexing_cache_key_inj).
  split; [done |].
  destruct (run_redis E segment_id keywords w) as [-> | ->]; [done |].
  rewrite elem_of_difference, elem_of_singleton.
  split; [by intros [? _] | by intros; split].
Qed.

Lemma other_marker_untouched_witness :
  let w := Scenario.world "S1" "waiting"
             {[indexing_cache_key "S1"; indexing_cache_key "S2"]} in
  let E := Scenario.env Scenario.no_fault true true in
  indexing_cache_key "S2" ≠ indexing_cache_key "S1" ∧
  (indexing_cache_key "S2"
     ∈ redis (snd (create_segment_to_index_task E "S1" None w))
   ↔ indexing_cache_key "S2" ∈ redis w).
Proof.
  intros w E. apply (other_marker_untouched E "S1" None w "S2").
  discriminate.
Defined.

(** X4.  When the identifier does not resolve, the function raises
    [NotFound] and the world is untouched: nothing is written or
    committed, no tier is called, and a lock marker set for that
    identifier is not released. *)
Theorem missing_segment_changes_nothing E segment_id keywords w :
  session w !! segment_id = None →
  create_segment_to_index_task E segment_id keywords w
  = (Raised (NotFound "Segment not found"), w) ∧
  (indexing_cache_key segment_id ∈ redis w →
   indexing_cache_key segment_id
     ∈ redis (snd (create_segment_to_index_task E segment_id keywords w))).
Proof.
  intros Hs. by rewrite (task_body_missing _ _ _ _ Hs).
Qed.

Lemma missing_segment_changes_nothing_witness :
  let w := Scenario.world "S1" "waiting" {[indexing_cache_key "S0"]} in
  let E := Scenario.env Scenario.no_fault true true in
  create_segment_to_index_task E "S0" None w
  = (Raised (NotFound "Segment not found"), w) ∧
  indexing_cache_key "S0"
    ∈ redis (snd (create_segment_to_index_task E "S0" None w)).
Proof.
  intros w E.
  destruct (missing_segment_changes_nothing E "S0" None w eq_refl) as [H1 H2].
  split; [exact H1 |]. apply H2. vm_compute. reflexivity.
Defined.

(** X5.  Whatever the status of the segment and however the invocation
    ends, the row of the segment stays in the session and keeps its
    content, node identifier, node hash, document identifier and dataset
    identifier. *)
Theorem row_identity_preserved E segment_id keywords w segment :
  session w !! segment_id = Some segment →
  ∃ s', session (snd (create_segment_to_index_task E segment_id keywords w))
          !! segment_id = Some s' ∧
        content s' = content segment ∧
        index_node_id s' = index_node_id segment ∧
        index_node_hash s' = index_node_hash segment ∧
        document_id s' = document_id segment ∧
        dataset_id s' = dataset_id segment.
Proof.
  intros Hs. destruct (decide (status segment = "waiting")) as [Hw|Hw].
  - rewrite (task_body_waiting _ _ _ _ _ Hs Hw).
    pose proof (guarded_block_spec E segment_id segment keywords w) as Hb.
    destruct (guarded_block E segment_id segment keywords w) as [o wb].
    destruct Hb as (_ & f & Hf & Hfr & _).
    destruct (Hfr segment) as (? & ? & ? & ? & ? & _).
    destruct o as [[]| |e]; simpl;
      rewrite ?record_failure_spec; try destruct (fault E CommitFailure);
      simpl; rewrite Hf, ?lookup_alter_eq, Hs; simpl; by eexists.
  - rewrite (task_body_not_waiting _ _ _ _ _ Hs Hw). by exists segment.
Qed.

Lemma row_identity_preserved_witness :
  let w := Scenario.world "S3" "waiting" ∅ in
  let E := Scenario.env (Scenario.fault_at UpdateCompleted "deadlock") true true in
  let segment := Scenario.segment "waiting" in
  ∃ s', session (snd (create_segment_to_index_task E "S3" None w)) !! "S3"
        = Some s' ∧
        content s' = content segment ∧
        index_node_id s' = index_node_id segment ∧
        index_node_hash s' = index_node_hash segment ∧
        document_id s' = document_id segment ∧
        dataset_id s' = dataset_id segment.
Proof.
  intros w E segment.
  apply (row_identity_preserved E "S3" None w segment). reflexivity.
Defined.

(** X6.  When an invocation on a segment in [waiting] returns, nothing
    is left uncommitted: the committed rows are the rows of the session,
    whether the block completed, left on an eligibility check or raised
    and had its fault recorded. *)
Theorem nothing_left_uncommitted E segment_id keywords w segment :
  session w !! segment_id = Some segment →
  status segment = "waiting" →
  fst (create_segment_to_index_task E segment_id keywords w) = Returned →
  let w' := snd (create_segment_to_index_task E segment_id keywords w) in
  committed w' = session w'.
Proof.
  intros Hs Hw Hret.
  destruct (run_waiting_cases E _ keywords _ _ Hs Hw)
    as [(_ & -> & _) | [(dataset & _ & _ & _ & ->)
                       | (c & d & s1 & _ & _ & _ & Hc)]];
    [done | done | by apply Hc].
Qed.

Lemma nothing_left_uncommitted_witness :
  let seg := Scenario.segment "waiting" in
  let w := mkWorld {["S1" := seg]} ∅ [] ∅ in
  let E := Scenario.env (Scenario.fault_at UpdateCompleted "deadlock")
             true true in
  let w' := snd (create_segment_to_index_task E "S1" None w) in
  committed w' = session w'.
Proof.
  intros seg w E.
  apply (nothing_left_uncommitted E "S1" None w seg); reflexivity.
Defined.

(** X7.  An invocation on an existing segment adds at most two calls to
    those received by the index objects, and each of them is about that
    segment: an [add_texts] of the single document built from it, or a
    [create_segment_keywords] under its node identifier with the
    non-empty keyword list the invocation was given. *)
Theorem index_calls_are_about_the_segment E segment_id keywords w segment :
  session w !! segment_id = Some segment →
  ∃ l, index_calls (snd (create_segment_to_index_task E segment_id keywords w))
       = (index_calls w ++ l)%list ∧
       (length l ≤ 2)%nat ∧
       Forall (call_for_segment segment keywords) l.
Proof.
  intros Hs. destruct (decide (status segment = "waiting")) as [Hw|Hw].
  - rewrite (task_body_waiting _ _ _ _ _ Hs Hw).
    destruct (guarded_block_calls E segment_id segment keywords w)
      as (l & Hl & Hlen & Hall).
    destruct (guarded_block E segment_id segment keywords w) as [o wb].
    exists l. destruct o as [[]| |e]; try done.
    rewrite record_failure_spec. by destruct (fault E CommitFailure).
  - rewrite (task_body_not_waiting _ _ _ _ _ Hs Hw).
    exists []. rewrite app_nil_r.
    split; [reflexivity |]. split; [simpl; lia | constructor].
Qed.

Lemma index_calls_are_about_the_segment_witness :
  let w := Scenario.world "S2" "waiting" ∅ in
  let E := Scenario.env Scenario.no_fault true true in
  let keywords := Some ["alpha"] in
  ∃ l, index_calls (snd (create_segment_to_index_task E "S2" keywords w))
       = (index_calls w ++ l)%list ∧
       (length l ≤ 2)%nat ∧
       Forall (call_for_segment (Scenario.segment "waiting") keywords) l.
Proof.
  intros w E keywords.
  apply (index_calls_are_about_the_segment E "S2" keywords w
           (Scenario.segment "waiting")).
  reflexivity.
Defined.



(** X9.  If a segment that was in [waiting] is [completed] when the
    invocation is over, it passed the eligibility checks, no call raised,
    every configured tier received its call, and the row differs from
    the initial one by the status and the two timestamps only. *)
Theorem completed_means_indexed E segment_id keywords w segment s' :
  session w !! segment_id = Some segment →
  status segment = "waiting" →
  let w' := snd (create_segment_to_index_task E segment_id keywords w) in
  session w' !! segment_id = Some s' →
  status s' = "completed" →
  s' = to_completed (utcnow_completed E)
         (to_indexing (utcnow_indexing E) segment) ∧
  ∃ dataset,
    eligible E segment dataset ∧
    quiet E (sites_on_path E dataset keywords) ∧
    index_calls w' =
      (index_calls w ++ high_quality_calls E dataset segment
       ++ economy_calls E dataset segment keywords)%list.
Proof.
  intros Hs Hw. simpl.
  destruct (run_waiting_cases E _ keywords _ _ Hs Hw)
    as [(_ & -> & Hne) | [(dataset & _ & ? & ? & ->)
                         | (c & d & s1 & _ & _ & -> & _)]];
    simpl; rewrite ?lookup_insert_eq; intros [= <-]; try done.
  intros _. split; [reflexivity |]. by exists dataset.
Qed.

Lemma completed_means_indexed_witness :
  let w := Scenario.world "S1" "waiting" ∅ in
  let E := Scenario.env Scenario.no_fault true false in
  let segment := Scenario.segment "waiting" in
  let s' := to_completed 200%Z (to_indexing 100%Z segment) in
  let w' := snd (create_segment_to_index_task E "S1" None w) in
  s' = to_completed (utcnow_completed E)
         (to_indexing (utcnow_indexing E) segment) ∧
  ∃ dataset,
    eligible E segment dataset ∧
    quiet E (sites_on_path E dataset None) ∧
    index_calls w' =
      (index_calls w ++ high_quality_calls E dataset segment
       ++ economy_calls E dataset segment None)%list.
Proof.
  intros w E segment s'.
  apply (completed_means_indexed E "S1" None w segment s'); reflexivity.
Defined.

(** X10.  If a segment that was in [waiting] is in [error] when the
    invocation is over, a collaborator call raised, and the row is
    disabled and carries the description of that exception. *)
Theorem error_means_a_call_raised E segment_id keywords w segment s' :
  session w !! segment_id = Some segment →
  status segment = "waiting" →
  let w' := snd (create_segment_to_index_task E segment_id keywords w) in
  session w' !! segment_id = Some s' →
  status s' = "error" →
  ∃ c d, fault E c = Some d ∧
         error s' = Some d ∧
         enabled s' = false ∧
         disabled_at s' = Some (utcnow_disabled E).
Proof.
  intros Hs Hw. simpl.
  destruct (run_waiting_cases E _ keywords _ _ Hs Hw)
    as [(_ & -> & Hne) | [(dataset & _ & ? & ? & ->)
                         | (c & d & s1 & Hf & _ & -> & _)]];
    simpl; rewrite ?lookup_insert_eq; intros [= <-]; try done.
  intros _. by exists c, d.
Qed.

Lemma error_means_a_call_raised_witness :
  let w := Scenario.world "S3" "waiting" ∅ in
  let E := Scenario.env (Scenario.fault_at GetIndexEconomy "no such index")
             true true in
  let s' := failed E (Fault "no such index")
              (to_indexing 100%Z (Scenario.segment "waiting")) in
  ∃ c d, fault E c = Some d ∧
         error s' = Some d ∧
         enabled s' = false ∧
         disabled_at s' = Some (utcnow_disabled E).
Proof.
  intros w E s'.
  apply (error_means_a_call_raised E "S3" None w (Scenario.segment "waiting") s');
    reflexivity.
Defined.



(** X12.  When no economy index is configured, the keywords of the
    invocation play no part: any two keyword arguments give the same
    result and the same world. *)
Theorem keywords_ignored_without_economy E segment_id keywords keywords' w :
  (∀ dataset, get_index E dataset "economy" = None) →
  create_segment_to_index_task E segment_id keywords w
  = create_segment_to_index_task E segment_id keywords' w.
Proof.
  intros Heco. unfold create_segment_to_index_task, call, task_body.
  destruct (session w !! segment_id) as [segment|]; [| reflexivity].
  destruct (negb (String.eqb (status segment) "waiting")); [reflexivity |].
  unfold try_except_finally.
  by rewrite (guarded_block_without_economy E _ _ keywords keywords' w Heco).
Qed.

Lemma keywords_ignored_without_economy_witness :
  let w := Scenario.world "S1" "waiting" ∅ in
  let E := Scenario.env Scenario.no_fault true false in
  create_segment_to_index_task E "S1" (Some ["alpha"; "beta"]) w
  = create_segment_to_index_task E "S1" None w.
Proof.
  intros w E.
  apply (keywords_ignored_without_economy E "S1" (Some ["alpha"; "beta"]) None w).
  reflexivity.
Defined.




(** X14.  The task deletes a key from redis and never reads one: with
    other keys in redis, the marker of the segment set or not, the
    invocation ends the same way, with the same rows in the session, the
    same committed rows and the same calls on the index objects. *)
Theorem result_independent_of_redis E segment_id keywords w keys :
  let r := create_segment_to_index_task E segment_id keywords w in
  let r' := create_segment_to_index_task E segment_id keywords
              (with_redis keys w) in
  fst r' = fst r ∧
  session (snd r') = session (snd r) ∧
  committed (snd r') = committed (snd r) ∧
  index_calls (snd r') = index_calls (snd r).
Proof.
  unfold create_segment_to_index_task, call, task_body. simpl.
  destruct (session w !! segment_id) as [segment|]; [| done].
  destruct (negb (String.eqb (status segment) "waiting")); [done |].
  unfold try_except_finally. rewrite guarded_block_with_redis.
  destruct (guarded_block E segment_id segment keywords w) as [o wb].
  destruct o as [[]| |e]; try done.
  cbn [fst snd]. rewrite !record_failure_spec.
  by destruct (fault E CommitFailure).
Qed.

(** X15.  Unless the segment ends in [error], an invocation leaves the
    columns [enabled], [disabled_at] and [error] of its row as they
    were: only the handler writes them. *)
Theorem disabling_columns_kept_without_error
    E segment_id keywords w segment s' :
  session w !! segment_id = Some segment →
  session (snd (create_segment_to_index_task E segment_id keywords w))
    !! segment_id = Some s' →
  status s' ≠ "error" →
  enabled s' = enabled segment ∧
  disabled_at s' = disabled_at segment ∧
  error s' = error segment.
Proof.
  intros Hs. destruct (decide (status segment = "waiting")) as [Hw|Hw].
  - destruct (run_waiting_cases E _ keywords _ _ Hs Hw)
      as [(_ & -> & Hne) | [(dataset & _ & ? & ? & ->)
                           | (c & d & s1 & Hf & _ & -> & _)]];
      simpl; rewrite ?lookup_insert_eq; intros [= <-]; done.
  - rewrite (task_body_not_waiting _ _ _ _ _ Hs Hw). simpl.
    rewrite Hs. by intros [= <-].
Qed.

Lemma disabling_columns_kept_without_error_witness :
  let w := Scenario.world "S1" "waiting" ∅ in
  let E := Scenario.env Scenario.no_fault true true in
  let segment := Scenario.segment "waiting" in
  let s' := to_completed 200%Z (to_indexing 100%Z segment) in
  enabled s' = enabled segment ∧
  disabled_at s' = disabled_at segment ∧
  error s' = error segment.
Proof.
  intros w E segment s'.
  apply (disabling_columns_kept_without_error E "S1" None w segment s');
    [reflexivity | reflexivity | discriminate].
Defined.
